(** * pymono, [apps/api/main.py]: the welcome service

    The module builds one [FastAPI] application object, registers the
    coroutine [read_root] on [GET /] and, when run as a script, hands the
    application to [uvicorn.run].

    The file is organised as follows.
    - [Http]: requests and responses as the ASGI layer presents them.
    - [Framework]: the part of FastAPI/Starlette that [main.py] calls: the
      application constructor with its keyword defaults, the route decorator
      and the router's dispatch.  This is the library the module imports,
      not code of the repository; it is written out here because the
      behaviour of the service on a request is the behaviour of that
      dispatch on the route table [main.py] builds.
    - [Main]: [main.py] itself, statement by statement.
    - the properties of the service. *)

From Stdlib Require Import ZArith Ascii.
From stdpp Require Import base strings list gmap.

Set Warnings "-register-all".

Local Open Scope string_scope.
Local Open Scope Z_scope.

(* ===================================================================== *)
(** ** HTTP data *)
(* ===================================================================== *)

Module Http.

(** The fields of the ASGI scope (and the body received after it) that a
    request carries. *)
Record request := Request {
  req_method : string;
  req_path : string;
  req_query_string : string;
  req_headers : list (string * string);
  req_body : string
}.

(** JSON values, as far as this service produces them: strings and
    objects.  An object keeps its members in order. *)
Inductive json :=
| JString (s : string)
| JObject (members : list (string * json)).

Fixpoint assoc (k : string) (members : list (string * json)) : option json :=
  match members with
  | [] => None
  | (k', v) :: rest => if String.eqb k k' then Some v else assoc k rest
  end.

(** Member access: [None] on a missing key and on a value that is not an
    object. *)
Definition member (k : string) (j : json) : option json :=
  match j with
  | JObject members => assoc k members
  | JString _ => None
  end.

(** The HTML documents the framework can answer with.  Each is a fixed
    template; the constructor's arguments are the values filled in. *)
Inductive html :=
| SwaggerUI (page_title openapi_url : string) (oauth2_redirect_url : option string)
| SwaggerUIRedirect
| ReDoc (page_title openapi_url : string).

Inductive content :=
| JSON (j : json)
| HTML (page : html)
| PlainText (s : string)
| Empty.

(** A response: status code and body.  Headers are left out. *)
Record response := Response {
  status_code : Z;
  body : content
}.

End Http.

Import Http.

(* ===================================================================== *)
(** ** The framework calls made by main.py *)
(* ===================================================================== *)

Module Framework.

(** A Python exception escaping an endpoint. *)
Inductive exn := Exception (what : string).

(** The documentation endpoints that [FastAPI.setup] defines as closures
    over the application. *)
Inductive builtin := openapi | swagger_ui_html | swagger_ui_redirect | redoc_html.

(** What a route calls: a documentation endpoint, or a user coroutine
    without parameters returning a [dict] of strings (or raising). *)
Inductive endpoint :=
| Builtin (b : builtin)
| Coroutine (name : string) (call : unit -> exn + gmap string string).

(** [Route] is Starlette's class, [APIRoute] FastAPI's subclass, the one
    [app.get] creates. *)
Inductive route_class := StarletteRoute | APIRoute.

Record Route := mkRoute {
  route_cls : route_class;
  route_path : string;
  route_methods : list string;
  route_endpoint : endpoint
}.

(** The application object: constructor arguments kept as attributes, the
    router's list of routes and the cached OpenAPI schema. *)
Record FastAPI := mkFastAPI {
  title : string;
  description : string;
  version : string;
  openapi_version : string;
  openapi_url : option string;
  docs_url : option string;
  redoc_url : option string;
  swagger_ui_oauth2_redirect_url : option string;
  routes : list Route;
  openapi_schema : option json
}.

Definition set_routes (app : FastAPI) (rs : list Route) : FastAPI :=
  mkFastAPI (title app) (description app) (version app) (openapi_version app)
    (openapi_url app) (docs_url app) (redoc_url app)
    (swagger_ui_oauth2_redirect_url app) rs (openapi_schema app).

Definition set_openapi_schema (app : FastAPI) (s : option json) : FastAPI :=
  mkFastAPI (title app) (description app) (version app) (openapi_version app)
    (openapi_url app) (docs_url app) (redoc_url app)
    (swagger_ui_oauth2_redirect_url app) (routes app) s.

(** [Starlette.add_route(path, func)]: a plain [Route]; with no [methods]
    given a function endpoint answers GET, and a route that answers GET
    also answers HEAD. *)
Definition add_route (app : FastAPI) (p : string) (b : builtin) : FastAPI :=
  set_routes app
    (routes app ++ [mkRoute StarletteRoute p ["GET"; "HEAD"] (Builtin b)]).

(** [FastAPI.setup], run at the end of the constructor: the documentation
    routes, each only when its URL is set. *)
Definition setup (app : FastAPI) : FastAPI :=
  let app1 :=
    match openapi_url app with
    | Some u => add_route app u openapi
    | None => app
    end in
  let app2 :=
    match openapi_url app1, docs_url app1 with
    | Some _, Some d =>
        let a := add_route app1 d swagger_ui_html in
        match swagger_ui_oauth2_redirect_url a with
        | Some r => add_route a r swagger_ui_redirect
        | None => a
        end
    | _, _ => app1
    end in
  match openapi_url app2, redoc_url app2 with
  | Some _, Some r => add_route app2 r redoc_html
  | _, _ => app2
  end.

(** [FastAPI(title=..., description=..., version=...)]: every other
    keyword argument at its default. *)
Definition FastAPI_init (title description version : string) : FastAPI :=
  setup (mkFastAPI title description version "3.1.0"
           (Some "/openapi.json") (Some "/docs") (Some "/redoc")
           (Some "/docs/oauth2-redirect") [] None).

(** [@app.get(path)] applied to a coroutine: an [APIRoute] for the method
    GET alone is appended to the routes. *)
Definition get (app : FastAPI) (p : string) (name : string)
    (func : unit -> exn + gmap string string) : FastAPI :=
  set_routes app (routes app ++ [mkRoute APIRoute p ["GET"] (Coroutine name func)]).

(** *** Matching *)

Inductive Match := NONE | PARTIAL | FULL.

Definition mem (s : string) (l : list string) : bool :=
  existsb (String.eqb s) l.

(** A line feed, as a one-character string. *)
Definition LF : string := String (ascii_of_nat 10) EmptyString.

(** The compiled pattern of a path without parameters is the path itself
    between [^] and [$], tried with [re.match]: it accepts the path, and,
    [$] standing also before a final line feed, the path followed by one
    line feed. *)
Definition accepts (pattern s : string) : bool :=
  String.eqb s pattern || String.eqb s (pattern ++ LF).

(** [Route.matches]: a path the pattern accepts matches; with a method
    outside the route's methods the match is partial. *)
Definition matches (r : Route) (req : request) : Match :=
  if accepts (route_path r) (req_path req) then
    if mem (req_method req) (route_methods r) then FULL else PARTIAL
  else NONE.

Fixpoint first_full (rs : list Route) (req : request) : option Route :=
  match rs with
  | [] => None
  | r :: rest =>
      match matches r req with
      | FULL => Some r
      | _ => first_full rest req
      end
  end.

Fixpoint first_partial (rs : list Route) (req : request) : option Route :=
  match rs with
  | [] => None
  | r :: rest =>
      match matches r req with
      | PARTIAL => Some r
      | _ => first_partial rest req
      end
  end.

Fixpoint any_match (rs : list Route) (req : request) : bool :=
  match rs with
  | [] => false
  | r :: rest =>
      match matches r req with
      | NONE => any_match rest req
      | _ => true
      end
  end.

Definition slash : ascii := ascii_of_nat 47.

(** Python's [s.rstrip("/")] and [s.endswith("/")]. *)
Fixpoint rstrip_slash (s : string) : string :=
  match s with
  | EmptyString => EmptyString
  | String c rest =>
      match rstrip_slash rest with
      | EmptyString => if Ascii.eqb c slash then EmptyString else String c EmptyString
      | kept => String c kept
      end
  end.

Fixpoint endswith_slash (s : string) : bool :=
  match s with
  | EmptyString => false
  | String c EmptyString => Ascii.eqb c slash
  | String _ rest => endswith_slash rest
  end.

Definition with_path (req : request) (p : string) : request :=
  Request (req_method req) p (req_query_string req) (req_headers req) (req_body req).

(** The scope the router retries with when [redirect_slashes] is on. *)
Definition redirect_scope (req : request) : request :=
  if endswith_slash (req_path req)
  then with_path req (rstrip_slash (req_path req))
  else with_path req (req_path req ++ "/").


(** *** Endpoints *)

(** [jsonable_encoder] on a [dict] of strings. *)
Definition jsonable_encoder (d : gmap string string) : json :=
  JObject ((fun kv => (fst kv, JString (snd kv))) <$> map_to_list d).

Definition lower_ascii (c : ascii) : ascii :=
  let n := nat_of_ascii c in
  if ((65 <=? n)%nat && (n <=? 90)%nat)%bool then ascii_of_nat (n + 32) else c.

Fixpoint lower (s : string) : string :=
  match s with
  | EmptyString => EmptyString
  | String c rest => String (lower_ascii c) (lower rest)
  end.

(** The [paths] object of the schema: one item per [APIRoute], keyed by
    its path, with one member per method.  The operation objects
    (summary, operation id, responses) are not spelled out. *)
Definition openapi_paths (rs : list Route) : list (string * json) :=
  omap (fun r =>
          match route_cls r with
          | APIRoute =>
              Some (route_path r,
                    JObject ((fun m => (lower m, JObject [])) <$> route_methods r))
          | StarletteRoute => None
          end) rs.

(** [get_openapi]: the schema document, whose [info] object carries the
    application's title, description and version. *)
Definition get_openapi (app : FastAPI) : json :=
  JObject [
    ("openapi", JString (openapi_version app));
    ("info", JObject [("title", JString (title app));
                      ("description", JString (description app));
                      ("version", JString (version app))]);
    ("paths", JObject (openapi_paths (routes app)))
  ].

(** [FastAPI.openapi]: computed on first use, then served from the
    attribute [openapi_schema]. *)
Definition FastAPI_openapi (app : FastAPI) : FastAPI * json :=
  match openapi_schema app with
  | Some s => (app, s)
  | None => let s := get_openapi app in (set_openapi_schema app (Some s), s)
  end.

Definition or_empty (o : option string) : string :=
  match o with Some s => s | None => EmptyString end.

(** The outcome of serving one request: the application afterwards, the
    response, and the records written to the error log. *)
Definition outcome : Type := FastAPI * response * list string.

Definition run_endpoint (app : FastAPI) (e : endpoint) : outcome :=
  match e with
  | Builtin openapi =>
      let '(app', schema) := FastAPI_openapi app in
      (app', Response 200 (JSON schema), [])
  | Builtin swagger_ui_html =>
      (app, Response 200
              (HTML (SwaggerUI (title app ++ " - Swagger UI")
                       (or_empty (openapi_url app))
                       (swagger_ui_oauth2_redirect_url app))), [])
  | Builtin swagger_ui_redirect =>
      (app, Response 200 (HTML SwaggerUIRedirect), [])
  | Builtin redoc_html =>
      (app, Response 200
              (HTML (ReDoc (title app ++ " - ReDoc") (or_empty (openapi_url app)))), [])
  | Coroutine _ call =>
      match call tt with
      | inr d => (app, Response 200 (JSON (jsonable_encoder d)), [])
      | inl (Exception what) =>
          (app, Response 500 (PlainText "Internal Server Error"),
           ["Exception in ASGI application: " ++ what])
      end
  end.

Definition method_not_allowed : response :=
  Response 405 (JSON (JObject [("detail", JString "Method Not Allowed")])).

Definition not_found : response :=
  Response 404 (JSON (JObject [("detail", JString "Not Found")])).

(** The redirect to the path of [redirect_scope]. *)
Definition redirect : response := Response 307 Empty.

(** [Router.app]: the first full match is served; failing that the first
    partial match answers 405; failing that a path that matches once its
    trailing slash is added or removed is redirected; anything else is
    not found. *)
Definition dispatch (app : FastAPI) (req : request) : outcome :=
  match first_full (routes app) req with
  | Some r => run_endpoint app (route_endpoint r)
  | None =>
      match first_partial (routes app) req with
      | Some r => (app, method_not_allowed, [])
      | None =>
          if negb (String.eqb (req_path req) "/")
             && any_match (routes app) (redirect_scope req)
          then (app, redirect, [])
          else (app, not_found, [])
      end
  end.

(** *** The running server *)

(** The process once it serves: the application, the error log, and the
    responses written to clients so far. *)
Record server := Server {
  application : FastAPI;
  log : list string;
  sent : list response
}.

Definition serve (srv : server) (req : request) : server :=
  let '(app', resp, records) := dispatch (application srv) req in
  Server app' (log srv ++ records) (sent srv ++ [resp]).

Definition serve_all (srv : server) (reqs : list request) : server :=
  foldl serve srv reqs.

(** The response a request gets from a server in a given state. *)
Definition respond (srv : server) (req : request) : response :=
  snd (fst (dispatch (application srv) req)).

End Framework.

Import Framework.

(* ===================================================================== *)
(** ** main.py *)
(* ===================================================================== *)

Module Main.

(** What the process could consult at startup, were it to look. *)
Record environment := Environment {
  argv : list string;
  environ : gmap string string;
  files : gmap string string
}.

(** The one call with an effect outside the module. *)
Inductive effect := uvicorn_run (app : FastAPI) (host : string) (port : Z).

(** [app = FastAPI(title=..., description=..., version=...)] *)
Definition app_created : FastAPI :=
  FastAPI_init "FastAPI Example" "A simple FastAPI application example" "1.0.0".

(** [async def read_root(): return {"message": ...}] *)
Definition read_root (_ : unit) : exn + gmap string string :=
  inr {[ "message" := "Welcome to the FastAPI Example!" ]}.

(** [@app.get("/")] on [read_root]: the application as every later
    statement and every request sees it. *)
Definition app : FastAPI := get app_created "/" "read_root" read_root.

(** [if __name__ == "__main__": uvicorn.run(app, host="0.0.0.0", port=8000)] *)
Definition main_guard (name : string) : list effect :=
  if String.eqb name "__main__" then [uvicorn_run app "0.0.0.0" 8000] else [].

(** Executing the module under the name [name]: the global [app] and the
    effects performed.  No statement reads [env]. *)
Definition run_module (name : string) (env : environment) : FastAPI * list effect :=
  (app, main_guard name).

(** The server that serves [app], whoever started it. *)
Definition server0 : server := Server app [] [].

(** The route [main.py] registers, and the routes of a table that came
    from [app.get] rather than from the framework's own setup. *)
Definition root_route : Route := mkRoute APIRoute "/" ["GET"] (Coroutine "read_root" read_root).

Definition is_api_route (r : Route) : bool :=
  match route_cls r with APIRoute => true | StarletteRoute => false end.

Definition bespoke (rs : list Route) : list Route := List.filter is_api_route rs.

(** The points of the process lifetime at which the application object
    exists: after the constructor, after the decorator, and after each
    history of requests served. *)
Inductive point :=
| Constructed
| Registered
| Served (history : list request).

Definition app_at (pt : point) : FastAPI :=
  match pt with
  | Constructed => app_created
  | Registered => app
  | Served history => application (serve_all server0 history)
  end.

Definition welcome : response :=
  Response 200 (JSON (JObject [("message", JString "Welcome to the FastAPI Example!")])).

End Main.

Import Main.

(* ===================================================================== *)
(** ** Facts about the router *)
(* ===================================================================== *)

(** [p] is [d], optionally followed by one line feed. *)
Definition lf_opt (d p : string) : Prop := p = d \/ p = d ++ LF.

(** Some route's pattern accepts the path; some route's pattern accepts the
    path and the route answers the method. *)
Definition path_known (rs : list Route) (p : string) : Prop :=
  exists r, In r rs /\ accepts (route_path r) p = true.

Definition pair_allowed (rs : list Route) (m p : string) : Prop :=
  exists r, In r rs /\ accepts (route_path r) p = true /\ mem m (route_methods r) = true.

(** The (method, path) pairs of a route table. *)
Definition pairs_of (rs : list Route) : list (string * string) :=
  flat_map (fun r => map (fun m => (m, route_path r)) (route_methods r)) rs.

Section RouterFacts.

Variable req : request.

Lemma accepts_spec pat s : accepts pat s = true <-> lf_opt pat s.
Proof.
  unfold accepts, lf_opt. rewrite orb_true_iff, !String.eqb_eq. reflexivity.
Qed.

Lemma mem_In s l : mem s l = true <-> In s l.
Proof.
  unfold mem. rewrite existsb_exists. split.
  - intros (x & Hin & Heq). apply String.eqb_eq in Heq. now subst x.
  - intros Hin. exists s. split; [exact Hin | apply String.eqb_refl].
Qed.

Lemma matches_FULL r :
  matches r req = FULL <->
  accepts (route_path r) (req_path req) = true
  /\ mem (req_method req) (route_methods r) = true.
Proof.
  unfold matches.
  destruct (accepts (route_path r) (req_path req));
    destruct (mem (req_method req) (route_methods r));
    split; try discriminate; try (intros [? ?]; discriminate); auto.
Qed.

Lemma matches_not_NONE r :
  matches r req <> NONE <-> accepts (route_path r) (req_path req) = true.
Proof.
  unfold matches.
  destruct (accepts (route_path r) (req_path req));
    destruct (mem (req_method req) (route_methods r));
    split; try discriminate; auto; intros H; now elim H.
Qed.

Lemma first_full_Some rs r :
  first_full rs req = Some r -> In r rs /\ matches r req = FULL.
Proof.
  induction rs as [|r' rs IH]; simpl; [discriminate|].
  destruct (matches r' req) eqn:E; intros H;
    try (apply IH in H as [? ?]; split; [right|]; assumption).
  injection H as <-. split; [left; reflexivity | exact E].
Qed.

Lemma first_partial_Some rs r :
  first_partial rs req = Some r -> In r rs /\ matches r req = PARTIAL.
Proof.
  induction rs as [|r' rs IH]; simpl; [discriminate|].
  destruct (matches r' req) eqn:E; intros H;
    try (apply IH in H as [? ?]; split; [right|]; assumption).
  injection H as <-. split; [left; reflexivity | exact E].
Qed.

Lemma first_full_complete rs r :
  In r rs -> matches r req = FULL -> exists r', first_full rs req = Some r'.
Proof.
  induction rs as [|r0 rs IH]; simpl; [intros []|].
  intros [-> | Hin] Hm.
  - rewrite Hm. now exists r.
  - destruct (matches r0 req); eauto.
Qed.

Lemma first_partial_complete rs r :
  In r rs -> matches r req = PARTIAL -> exists r', first_partial rs req = Some r'.
Proof.
  induction rs as [|r0 rs IH]; simpl; [intros []|].
  intros [-> | Hin] Hm.
  - rewrite Hm. now exists r.
  - destruct (matches r0 req); eauto.
Qed.

(** A full match exists exactly for an allowed pair. *)
Lemma first_full_iff rs :
  (exists r, first_full rs req = Some r)
  <-> pair_allowed rs (req_method req) (req_path req).
Proof.
  split.
  - intros (r & Hfull). apply first_full_Some in Hfull as [Hin Hm].
    apply matches_FULL in Hm. now exists r.
  - intros (r & Hin & Hacc & Hmem).
    apply (first_full_complete rs r Hin). now apply matches_FULL.
Qed.

(** Without a full match, a partial one exists exactly for a known path. *)
Lemma first_partial_iff rs :
  first_full rs req = None ->
  (exists r, first_partial rs req = Some r) <-> path_known rs (req_path req).
Proof.
  intros Hnone. split.
  - intros (r & Hpart). apply first_partial_Some in Hpart as [Hin Hm].
    exists r. split; [exact Hin|]. apply matches_not_NONE. now rewrite Hm.
  - intros (r & Hin & Hacc). apply matches_not_NONE in Hacc.
    destruct (matches r req) eqn:Hm.
    + now elim Hacc.
    + exact (first_partial_complete rs r Hin Hm).
    + destruct (first_full_complete rs r Hin Hm) as [r' Hr'].
      rewrite Hr' in Hnone. discriminate Hnone.
Qed.

Lemma any_match_iff rs : any_match rs req = true <-> path_known rs (req_path req).
Proof.
  induction rs as [|r rs IH]; simpl.
  - split; [discriminate | intros (r & [] & _)].
  - destruct (matches r req) eqn:Hm.
    + rewrite IH. split.
      * intros (r' & Hin & Hacc). exists r'. split; [now right | exact Hacc].
      * intros (r' & [<- | Hin] & Hacc); [|now exists r'].
        apply matches_not_NONE in Hacc. now elim Hacc.
    + split; [intros _ | reflexivity].
      exists r. split; [now left|]. apply matches_not_NONE. now rewrite Hm.
    + split; [intros _ | reflexivity].
      exists r. split; [now left|]. apply matches_not_NONE. now rewrite Hm.
Qed.

Lemma pair_allowed_known rs m p : pair_allowed rs m p -> path_known rs p.
Proof. intros (r & Hin & Hacc & _). now exists r. Qed.

(** Both read off the paths and pairs of the table. *)
Lemma path_known_paths rs p :
  path_known rs p <-> exists d, In d (map route_path rs) /\ lf_opt d p.
Proof.
  split.
  - intros (r & Hin & Hacc). exists (route_path r).
    split; [now apply in_map | now apply accepts_spec].
  - intros (d & Hin & Hl). apply in_map_iff in Hin as (r & <- & Hin).
    exists r. split; [exact Hin | now apply accepts_spec].
Qed.

Lemma pair_allowed_pairs rs m p :
  pair_allowed rs m p <-> exists d, In (m, d) (pairs_of rs) /\ lf_opt d p.
Proof.
  unfold pairs_of. split.
  - intros (r & Hin & Hacc & Hmem). exists (route_path r).
    split; [|now apply accepts_spec].
    apply in_flat_map. exists r. split; [exact Hin|].
    apply in_map_iff. exists m. split; [reflexivity | now apply mem_In].
  - intros (d & Hin & Hl). apply in_flat_map in Hin as (r & Hr & Hin).
    apply in_map_iff in Hin as (m' & Heq & Hm). injection Heq as -> <-.
    exists r. split; [exact Hr|]. split; [now apply accepts_spec | now apply mem_In].
Qed.

End RouterFacts.

(* ===================================================================== *)
(** ** The states of the served application *)
(* ===================================================================== *)

(** The application once [/openapi.json] has been asked for: the schema is
    kept in [openapi_schema]. *)
Definition cached : FastAPI := set_openapi_schema app (Some (get_openapi app)).

Definition warm (a : FastAPI) : Prop := a = app \/ a = cached.

Definition doc_routes : list Route :=
  [ mkRoute StarletteRoute "/openapi.json" ["GET"; "HEAD"] (Builtin openapi);
    mkRoute StarletteRoute "/docs" ["GET"; "HEAD"] (Builtin swagger_ui_html);
    mkRoute StarletteRoute "/docs/oauth2-redirect" ["GET"; "HEAD"] (Builtin swagger_ui_redirect);
    mkRoute StarletteRoute "/redoc" ["GET"; "HEAD"] (Builtin redoc_html) ].

Lemma routes_app_created : routes app_created = doc_routes.
Proof. reflexivity. Qed.

Lemma routes_app : routes app = (doc_routes ++ [root_route])%list.
Proof. reflexivity. Qed.

Lemma routes_warm a : warm a -> routes a = (doc_routes ++ [root_route])%list.
Proof. intros [-> | ->]; reflexivity. Qed.

(** The statuses the router can answer with on this route table. *)
Definition statuses : list Z := [200; 405; 307; 404].

Lemma dispatch_warm a req :
  warm a ->
  warm (fst (fst (dispatch a req)))
  /\ snd (dispatch a req) = []
  /\ In (status_code (snd (fst (dispatch a req)))) statuses.
Proof.
  intros Hw. unfold dispatch.
  destruct (first_full (routes a) req) as [r|] eqn:Hfull.
  - apply first_full_Some in Hfull as [Hin _].
    rewrite (routes_warm a Hw) in Hin.
    unfold warm, statuses.
    destruct Hw as [-> | ->];
      (destruct Hin as [<- | [<- | [<- | [<- | [<- | []]]]]]; cbn;
       repeat split; auto).
  - destruct (first_partial (routes a) req) as [r|] eqn:Hpart.
    + cbn. unfold statuses. repeat split; simpl; auto.
    + destruct (negb (String.eqb (req_path req) "/")
                && any_match (routes a) (redirect_scope req));
        cbn; unfold statuses; repeat split; simpl; auto.
Qed.

Lemma serve_warm srv req :
  warm (application srv) -> log srv = [] ->
  warm (application (serve srv req)) /\ log (serve srv req) = [].
Proof.
  intros Hw Hlog. unfold serve.
  destruct (dispatch_warm (application srv) req Hw) as (Hw' & Hrec & _).
  destruct (dispatch (application srv) req) as [[a resp] records].
  simpl in *. subst records. rewrite Hlog. split; [exact Hw' | reflexivity].
Qed.

Lemma serve_all_warm reqs : forall srv,
  warm (application srv) -> log srv = [] ->
  warm (application (serve_all srv reqs)) /\ log (serve_all srv reqs) = [].
Proof.
  induction reqs as [|req reqs IH]; intros srv Hw Hlog.
  - split; assumption.
  - destruct (serve_warm srv req Hw Hlog) as [Hw' Hlog'].
    exact (IH (serve srv req) Hw' Hlog').
Qed.

(** Whatever was served before, the application is [app], with or without
    its schema cached, and the error log is empty. *)
Lemma history_warm history :
  warm (application (serve_all server0 history))
  /\ log (serve_all server0 history) = [].
Proof. apply serve_all_warm; [left|]; reflexivity. Qed.

(** On [GET /] the router runs [read_root] and changes nothing. *)
Lemma dispatch_root a req :
  warm a -> req_method req = "GET" -> req_path req = "/" ->
  dispatch a req = (a, welcome, []).
Proof.
  intros Hw Hm Hp. destruct req as [m p q h b]. simpl in Hm, Hp. subst m p.
  destruct Hw as [-> | ->]; vm_compute; reflexivity.
Qed.

Lemma respond_root srv req :
  warm (application srv) -> req_method req = "GET" -> req_path req = "/" ->
  respond srv req = welcome.
Proof.
  intros Hw Hm Hp. unfold respond. now rewrite (dispatch_root _ req Hw Hm Hp).
Qed.

Lemma serve_root srv req :
  warm (application srv) -> req_method req = "GET" -> req_path req = "/" ->
  serve srv req = Server (application srv) (log srv) (sent srv ++ [welcome]).
Proof.
  intros Hw Hm Hp. unfold serve. rewrite (dispatch_root _ req Hw Hm Hp).
  now rewrite app_nil_r.
Qed.

(* ===================================================================== *)
(** ** Properties of the service *)
(* ===================================================================== *)

(** A request as a client with nothing to say sends it. *)
Definition bare (m p : string) : request := Request m p EmptyString [] EmptyString.

(** C1: every request for [GET /], after any history of requests, is
    answered with status 200 and the JSON object whose one member maps
    [message] to the welcome text; [read_root] returns the dictionary with
    that single entry. *)
Theorem get_root_welcome (history : list request) (req : request) :
  req_method req = "GET" -> req_path req = "/" ->
  let resp := respond (serve_all server0 history) req in
  status_code resp = 200
  /\ body resp = JSON (JObject [("message", JString "Welcome to the FastAPI Example!")])
  /\ forall u, exists d : gmap string string,
       read_root u = inr d
       /\ d !! "message" = Some "Welcome to the FastAPI Example!"
       /\ size d = 1%nat.
Proof.
  intros Hm Hp resp. subst resp.
  rewrite (respond_root _ req (proj1 (history_warm history)) Hm Hp).
  split; [reflexivity|]. split; [reflexivity|].
  intros u. eexists. split; [reflexivity|]. split.
  - apply lookup_singleton_eq.
  - apply map_size_singleton.
Qed.

Lemma get_root_welcome_witness :
  let resp := respond (serve_all server0 [bare "POST" "/"; bare "GET" "/openapi.json"])
                      (Request "GET" "/" "x=1" [("accept", "*/*")] EmptyString) in
  status_code resp = 200
  /\ body resp = JSON (JObject [("message", JString "Welcome to the FastAPI Example!")])
  /\ forall u, exists d : gmap string string,
       read_root u = inr d
       /\ d !! "message" = Some "Welcome to the FastAPI Example!"
       /\ size d = 1%nat.
Proof.
  apply (get_root_welcome [bare "POST" "/"; bare "GET" "/openapi.json"]
           (Request "GET" "/" "x=1" [("accept", "*/*")] EmptyString));
    reflexivity.
Defined.

(** C2: two invocations of [GET /], each after any history and with any
    headers, query string and body, get the same response. *)
Theorem get_root_two_runs (history1 history2 : list request) (req1 req2 : request) :
  req_method req1 = "GET" -> req_path req1 = "/" ->
  req_method req2 = "GET" -> req_path req2 = "/" ->
  respond (serve_all server0 history1) req1 = respond (serve_all server0 history2) req2.
Proof.
  intros Hm1 Hp1 Hm2 Hp2.
  rewrite (respond_root _ req1 (proj1 (history_warm history1)) Hm1 Hp1).
  rewrite (respond_root _ req2 (proj1 (history_warm history2)) Hm2 Hp2).
  reflexivity.
Qed.

Lemma get_root_two_runs_witness :
  respond (serve_all server0 []) (bare "GET" "/")
  = respond (serve_all server0 [bare "GET" "/docs"; bare "GET" "/openapi.json"])
            (Request "GET" "/" "x=1" [("user-agent", "curl")] "ignored").
Proof.
  apply (get_root_two_runs [] [bare "GET" "/docs"; bare "GET" "/openapi.json"]
           (bare "GET" "/")
           (Request "GET" "/" "x=1" [("user-agent", "curl")] "ignored"));
    reflexivity.
Defined.

(** C3: the same [GET /] request issued N times, after any history, gets
    N copies of one response, and the application and the log after the
    calls are those before them. *)
Theorem get_root_idempotent (history : list request) (req : request) (N : nat) :
  req_method req = "GET" -> req_path req = "/" ->
  let srv := serve_all server0 history in
  serve_all srv (replicate N req)
  = Server (application srv) (log srv) (sent srv ++ replicate N welcome).
Proof.
  intros Hm Hp srv.
  assert (Hw : warm (application srv)) by apply history_warm.
  clearbody srv. revert srv Hw.
  induction N as [|N IH]; intros srv Hw.
  - simpl. rewrite app_nil_r. now destruct srv.
  - change (serve_all srv (replicate (S N) req))
      with (serve_all (serve srv req) (replicate N req)).
    rewrite (serve_root srv req Hw Hm Hp).
    rewrite IH by exact Hw. simpl.
    now rewrite <- app_assoc.
Qed.

Lemma get_root_idempotent_witness :
  let srv := serve_all server0 [bare "GET" "/openapi.json"] in
  serve_all srv (replicate 3 (bare "GET" "/"))
  = Server (application srv) (log srv) (sent srv ++ replicate 3 welcome).
Proof.
  apply (get_root_idempotent [bare "GET" "/openapi.json"] (bare "GET" "/") 3);
    reflexivity.
Defined.

(** C4: serving [GET /] leaves the application and the log as they were;
    the one change to the server is the response appended to what was
    sent. *)
Theorem get_root_frame (history : list request) (req : request) :
  req_method req = "GET" -> req_path req = "/" ->
  let srv := serve_all server0 history in
  application (serve srv req) = application srv
  /\ log (serve srv req) = log srv
  /\ sent (serve srv req) = (sent srv ++ [respond srv req])%list.
Proof.
  intros Hm Hp srv.
  assert (Hw : warm (application srv)) by apply history_warm.
  rewrite (serve_root srv req Hw Hm Hp), (respond_root srv req Hw Hm Hp).
  repeat split.
Qed.

Lemma get_root_frame_witness :
  let srv := serve_all server0 [bare "GET" "/nonexistent"] in
  let req := Request "GET" "/" "x=1" [] EmptyString in
  application (serve srv req) = application srv
  /\ log (serve srv req) = log srv
  /\ sent (serve srv req) = (sent srv ++ [respond srv req])%list.
Proof.
  apply (get_root_frame [bare "GET" "/nonexistent"]
           (Request "GET" "/" "x=1" [] EmptyString));
    reflexivity.
Defined.

(** The frame of C4 is a property of [GET /], not of the server: the first
    request for the schema does change the application. *)
Example openapi_request_changes_application :
  application (serve server0 (bare "GET" "/openapi.json")) = cached
  /\ cached <> application server0.
Proof. split; [reflexivity | discriminate]. Qed.

(** The schema cache is the one thing a request can change, and the cached
    schema is the one that would be computed: the response to a request is
    the same from [cached] as from [app]. *)
Lemma dispatch_response_cached req :
  snd (fst (dispatch cached req)) = snd (fst (dispatch app req)).
Proof.
  unfold dispatch. change (routes cached) with (routes app).
  destruct (first_full (routes app) req) as [r|] eqn:Hfull.
  - apply first_full_Some in Hfull as [Hin _]. rewrite routes_app in Hin.
    destruct Hin as [<- | [<- | [<- | [<- | [<- | []]]]]]; reflexivity.
  - destruct (first_partial (routes app) req); [reflexivity|].
    destruct (negb (String.eqb (req_path req) "/")
              && any_match (routes app) (redirect_scope req)); reflexivity.
Qed.

Lemma respond_warm srv req :
  warm (application srv) -> respond srv req = respond server0 req.
Proof.
  unfold respond. intros [-> | ->]; [reflexivity | apply dispatch_response_cached].
Qed.

(** The paths and the (method, path) pairs of the route table [main.py]
    ends up with. *)
Definition served_paths : list string := map route_path (routes app).

Definition endpoint_table : list (string * string) := pairs_of (routes app).

Lemma served_paths_eq :
  served_paths = ["/openapi.json"; "/docs"; "/docs/oauth2-redirect"; "/redoc"; "/"].
Proof. reflexivity. Qed.


(** The four ways the router can answer from [app], each with the
    condition on the request under which it does. *)
Lemma dispatch_classify req :
  (pair_allowed (routes app) (req_method req) (req_path req)
   /\ status_code (respond server0 req) = 200)
  \/ (~ pair_allowed (routes app) (req_method req) (req_path req)
      /\ path_known (routes app) (req_path req)
      /\ respond server0 req = method_not_allowed)
  \/ (~ path_known (routes app) (req_path req)
      /\ path_known (routes app) (req_path (redirect_scope req))
      /\ respond server0 req = redirect)
  \/ (~ path_known (routes app) (req_path req)
      /\ ~ path_known (routes app) (req_path (redirect_scope req))
      /\ respond server0 req = not_found).
Proof.
  unfold respond, dispatch. simpl application.
  destruct (first_full (routes app) req) as [r|] eqn:Hfull.
  - left. split; [apply first_full_iff; now exists r|].
    apply first_full_Some in Hfull as [Hin _]. rewrite routes_app in Hin.
    destruct Hin as [<- | [<- | [<- | [<- | [<- | []]]]]]; reflexivity.
  - right.
    assert (Hno : ~ pair_allowed (routes app) (req_method req) (req_path req)).
    { intros Ha. apply first_full_iff in Ha as [r Hr].
      rewrite Hr in Hfull. discriminate Hfull. }
    pose proof (first_partial_iff req (routes app) Hfull) as Hpart.
    destruct (first_partial (routes app) req) as [r|].
    + left. split; [exact Hno|]. split; [|reflexivity].
      apply Hpart. now exists r.
    + right.
      assert (Hunk : ~ path_known (routes app) (req_path req)).
      { intros Hk. apply Hpart in Hk as [r Hr]. discriminate Hr. }
      pose proof (any_match_iff (redirect_scope req) (routes app)) as Hany.
      destruct (any_match (routes app) (redirect_scope req)).
      * destruct (String.eqb (req_path req) "/") eqn:Hroot.
        -- exfalso. apply Hunk. apply String.eqb_eq in Hroot. rewrite Hroot.
           exists root_route. split; [|reflexivity].
           rewrite routes_app. apply in_or_app. right. now left.
        -- left. split; [exact Hunk|]. split; [now apply Hany | reflexivity].
      * right. split; [exact Hunk|]. split.
        -- intros Hk. apply Hany in Hk. discriminate Hk.
        -- now rewrite andb_false_r.
Qed.

(** The status of every response, after any history, by the request. *)
Lemma status_table history req :
  let st := status_code (respond (serve_all server0 history) req) in
  let allowed := pair_allowed (routes app) (req_method req) (req_path req) in
  let known := path_known (routes app) (req_path req) in
  let known' := path_known (routes app) (req_path (redirect_scope req)) in
  (st = 200 <-> allowed)
  /\ (st = 405 <-> known /\ ~ allowed)
  /\ (st = 307 <-> ~ known /\ known')
  /\ (st = 404 <-> ~ known /\ ~ known').
Proof.
  intros st allowed known known'. subst st allowed known known'.
  rewrite (respond_warm _ req (proj1 (history_warm history))).
  pose proof (pair_allowed_known (routes app) (req_method req) (req_path req)) as Hak.
  destruct (dispatch_classify req)
    as [(Ha & ->) | [(Ha & Hk & ->) | [(Hk & Hk' & ->) | (Hk & Hk' & ->)]]];
    simpl status_code; intuition lia.
Qed.











(** Instances of the four cases, and of the line feed. *)
Example non_root_statuses :
  map (fun req => status_code (respond server0 req))
    [bare "GET" "/nonexistent"; bare "POST" "/docs"; bare "HEAD" "/redoc";
     bare "GET" "/docs/"; bare "GET" "/docs//"; bare "GET" "//";
     bare "GET" ("/docs" ++ LF); bare "GET" ("/" ++ LF); bare "POST" ("/" ++ LF);
     bare "GET" ("/docs/" ++ LF)]
  = [404; 405; 200; 307; 307; 404; 200; 200; 405; 404].
Proof. reflexivity. Qed.

(** C6: a request on the path [/] with any method other than GET is
    answered with 405, Method Not Allowed, hence not with 200. *)
Theorem root_other_method_405 (history : list request) (req : request) :
  req_path req = "/" -> req_method req <> "GET" ->
  let resp := respond (serve_all server0 history) req in
  status_code resp <> 200 /\ resp = method_not_allowed.
Proof.
  intros Hp Hm resp. subst resp. unfold respond, dispatch.
  rewrite (routes_warm _ (proj1 (history_warm history))).
  destruct req as [m p q h b]. simpl in Hp, Hm. subst p.
  apply String.eqb_neq in Hm.
  cbn. rewrite Hm. cbn. split; [discriminate | reflexivity].
Qed.

Lemma root_other_method_405_witness :
  let resp := respond (serve_all server0 []) (bare "POST" "/") in
  status_code resp <> 200 /\ resp = method_not_allowed.
Proof.
  apply (root_other_method_405 [] (bare "POST" "/")); [reflexivity | discriminate].
Defined.

(** C7: run as [__main__], the module calls [uvicorn.run] once, with the
    application, host 0.0.0.0 and port 8000, whatever the arguments,
    environment variables and files of the process; under any other name
    it performs no effect.  Either way the global [app] is the application
    with the route registered. *)
Theorem main_guard_spec (name : string) (env : environment) :
  fst (run_module name env) = app
  /\ bespoke (routes (fst (run_module name env))) = [root_route]
  /\ snd (run_module "__main__" env) = [uvicorn_run app "0.0.0.0" 8000]
  /\ (if String.eqb name "__main__"
      then snd (run_module name env) = [uvicorn_run app "0.0.0.0" 8000]
      else snd (run_module name env) = [])
  /\ forall env' : environment, run_module name env' = run_module name env.
Proof.
  repeat split. unfold run_module, main_guard. simpl.
  destruct (String.eqb name "__main__"); reflexivity.
Qed.

(** Imported under its module name, nothing is started. *)
Example imported_starts_nothing (env : environment) :
  snd (run_module "apps.api.main" env) = [].
Proof. reflexivity. Qed.

(** C8: the constructor leaves the four documentation routes of the
    framework; executing the module appends to them exactly one route, the
    one mapping GET on [/] to [read_root]; the table is those four before
    the decorator has run and those five, in that order, at every later
    point of the process lifetime, so that the one route made by [app.get]
    is the only one that did not come from the framework. *)
Theorem single_bespoke_route (name : string) (env : environment) (pt : point) :
  routes app_created
  = [ mkRoute StarletteRoute "/openapi.json" ["GET"; "HEAD"] (Builtin openapi);
      mkRoute StarletteRoute "/docs" ["GET"; "HEAD"] (Builtin swagger_ui_html);
      mkRoute StarletteRoute "/docs/oauth2-redirect" ["GET"; "HEAD"]
        (Builtin swagger_ui_redirect);
      mkRoute StarletteRoute "/redoc" ["GET"; "HEAD"] (Builtin redoc_html) ]
  /\ routes (fst (run_module name env)) = (routes app_created ++ [root_route])%list
  /\ routes (app_at pt)
     = match pt with
       | Constructed => routes app_created
       | _ => (routes app_created ++ [root_route])%list
       end
  /\ bespoke (routes (fst (run_module name env))) = [root_route]
  /\ route_path root_route = "/"
  /\ route_methods root_route = ["GET"]
  /\ route_endpoint root_route = Coroutine "read_root" read_root
  /\ bespoke (routes (app_at pt))
     = match pt with Constructed => [] | _ => [root_route] end.
Proof.
  split; [reflexivity|]. split; [reflexivity|]. split.
  { destruct pt as [| |history]; try reflexivity.
    simpl. now rewrite (routes_warm _ (proj1 (history_warm history))). }
  repeat split. destruct pt as [| |history]; try reflexivity.
  simpl. now rewrite (routes_warm _ (proj1 (history_warm history))).
Qed.


(** The router does have an error branch: a coroutine that raises is
    answered with 500 and leaves a record in the log. *)
Definition failing (_ : unit) : exn + gmap string string := inl (Exception "boom").

Example raising_endpoint_500 :
  let a := get app_created "/" "failing" failing in
  dispatch a (bare "GET" "/")
  = (a, Response 500 (PlainText "Internal Server Error"),
     ["Exception in ASGI application: boom"]).
Proof. reflexivity. Qed.


Lemma metadata_warm a :
  warm a ->
  title a = "FastAPI Example"
  /\ description a = "A simple FastAPI application example"
  /\ version a = "1.0.0".
Proof. intros [-> | ->]; repeat split. Qed.

(** C10: at every point of its lifetime the application carries the title
    FastAPI Example, the description A simple FastAPI application example
    and the version 1.0.0; clients read them in the [info] object of
    [GET /openapi.json], and the title in the pages at [/docs] and
    [/redoc]. *)
Theorem app_metadata (pt : point) (history : list request)
    (q : string) (h : list (string * string)) (b : string) :
  (title (app_at pt) = "FastAPI Example"
   /\ description (app_at pt) = "A simple FastAPI application example"
   /\ version (app_at pt) = "1.0.0")
  /\ (exists j : json,
        respond (serve_all server0 history) (Request "GET" "/openapi.json" q h b)
        = Response 200 (JSON j)
        /\ member "info" j
           = Some (JObject [("title", JString "FastAPI Example");
                            ("description", JString "A simple FastAPI application example");
                            ("version", JString "1.0.0")]))
  /\ body (respond (serve_all server0 history) (Request "GET" "/docs" q h b))
     = HTML (SwaggerUI "FastAPI Example - Swagger UI" "/openapi.json"
               (Some "/docs/oauth2-redirect"))
  /\ body (respond (serve_all server0 history) (Request "GET" "/redoc" q h b))
     = HTML (ReDoc "FastAPI Example - ReDoc" "/openapi.json").
Proof.
  split.
  { destruct pt as [| |hist]; [repeat split | repeat split |].
    apply metadata_warm, history_warm. }
  unfold respond.
  destruct (proj1 (history_warm history)) as [-> | ->].
  - split; [eexists; split; reflexivity|]. split; reflexivity.
  - split; [eexists; split; reflexivity|]. split; reflexivity.
Qed.

(* ===================================================================== *)
(** ** Further properties of the service *)
(* ===================================================================== *)

Lemma sent_serve_all reqs : forall srv,
  warm (application srv) ->
  sent (serve_all srv reqs) = (sent srv ++ map (respond server0) reqs)%list.
Proof.
  induction reqs as [|req reqs IH]; intros srv Hw.
  - simpl. now rewrite app_nil_r.
  - change (serve_all srv (req :: reqs)) with (serve_all (serve srv req) reqs).
    rewrite IH.
    + simpl map. unfold serve. rewrite <- (respond_warm srv req Hw). unfold respond.
      destruct (dispatch (application srv) req) as [[a resp] records]. simpl.
      now rewrite <- app_assoc.
    + unfold serve.
      destruct (dispatch_warm (application srv) req Hw) as (Hw' & _ & _).
      now destruct (dispatch (application srv) req) as [[a resp] records].
Qed.

(** X1: the welcome response is the answer of [read_root]'s route and of
    no other: a request gets it exactly when its method is GET and its path
    is [/], optionally followed by one line feed. *)
Theorem welcome_iff_get_root (history : list request) (req : request) :
  respond (serve_all server0 history) req = welcome
  <-> req_method req = "GET" /\ lf_opt "/" (req_path req).
Proof.
  rewrite (respond_warm _ req (proj1 (history_warm history))). split.
  - unfold respond, dispatch. simpl application.
    destruct (first_full (routes app) req) as [r|] eqn:Hfull.
    + apply first_full_Some in Hfull as [Hin Hm].
      apply matches_FULL in Hm as [Hacc Hmem].
      rewrite routes_app in Hin.
      destruct Hin as [<- | [<- | [<- | [<- | [<- | []]]]]];
        try (intros H; vm_compute in H; discriminate H).
      intros _. split; [|now apply accepts_spec].
      apply mem_In in Hmem. simpl in Hmem. now destruct Hmem as [<- | []].
    + destruct (first_partial (routes app) req); [discriminate|].
      destruct (negb (String.eqb (req_path req) "/")
                && any_match (routes app) (redirect_scope req)); discriminate.
  - intros [Hm Hp]. destruct req as [m p q h b]. simpl in Hm, Hp. subst m.
    destruct Hp as [-> | ->]; reflexivity.
Qed.

(** X2: the service answers 200 exactly on the (method, path) pairs of its
    route table, the path optionally followed by one line feed: GET on [/],
    and GET or HEAD on the four documentation paths. *)
Theorem status_200_iff_endpoint (history : list request) (req : request) :
  status_code (respond (serve_all server0 history) req) = 200
  <-> exists d,
        In (req_method req, d)
          [("GET", "/openapi.json"); ("HEAD", "/openapi.json");
           ("GET", "/docs"); ("HEAD", "/docs");
           ("GET", "/docs/oauth2-redirect"); ("HEAD", "/docs/oauth2-redirect");
           ("GET", "/redoc"); ("HEAD", "/redoc");
           ("GET", "/")]
        /\ lf_opt d (req_path req).
Proof.
  destruct (status_table history req) as (H200 & _).
  rewrite H200. apply (pair_allowed_pairs (routes app)).
Qed.

(** X3: the service answers 405 exactly when the path is one of the five
    registered paths, optionally followed by one line feed, and the method
    is not one the route on that path answers. *)
Theorem status_405_iff_known_path (history : list request) (req : request) :
  status_code (respond (serve_all server0 history) req) = 405
  <-> (exists d,
         In d ["/openapi.json"; "/docs"; "/docs/oauth2-redirect"; "/redoc"; "/"]
         /\ lf_opt d (req_path req))
      /\ ~ (exists d, In (req_method req, d) endpoint_table /\ lf_opt d (req_path req)).
Proof.
  destruct (status_table history req) as (_ & H405 & _).
  rewrite H405, <- served_paths_eq.
  unfold served_paths, endpoint_table.
  now rewrite path_known_paths, pair_allowed_pairs.
Qed.

(** X4: the response to a request does not depend on what was served
    before it, for every request and not only for [GET /]: the one thing
    earlier requests can change, the schema cache, shows in no response. *)
Theorem respond_history_independent (history : list request) (req : request) :
  respond (serve_all server0 history) req = respond server0 req.
Proof. apply respond_warm, history_warm. Qed.

(** X5: the responses sent for a sequence of requests are, in order, the
    responses each request gets from the fresh server. *)
Theorem sent_serve_all_map (reqs : list request) :
  sent (serve_all server0 reqs) = map (respond server0) reqs.
Proof. apply (sent_serve_all reqs server0). left. reflexivity. Qed.
